(** * helium-client-python: the serial transport shim ([helium_client/_serial.c])

    A shallow embedding of the C shim that exposes a serial device as a
    byte transport.  Machine integers are [Z] with the conversions of the
    C code written out; the operating system is an arbitrary deterministic
    transition system on an abstract world, and every system call the shim
    makes is recorded, with its result, in a trace. *)

From Stdlib Require Import ZArith Lia Bool Btauto.
From Stdlib.Init Require Import Byte.
From stdpp Require Import base list strings.

Local Open Scope Z_scope.

(** ** Machine integers *)

Module Int.

(** Conversion to a 32-bit unsigned type ([speed_t], [tcflag_t]). *)
Definition to_u32 (x : Z) : Z := x mod 2 ^ 32.

(** Conversion to [int] (32 bits, two's complement). *)
Definition to_int (x : Z) : Z := (x + 2 ^ 31) mod 2 ^ 32 - 2 ^ 31.

Definition is_u32 (x : Z) : Prop := 0 <= x < 2 ^ 32.

(** Conversion of an integer to C99 [bool]: every nonzero value is true. *)
Definition to_bool (x : Z) : bool := negb (x =? 0).

(** Every bit of [a] is a bit of [b]; [a] and [b] share no bit. *)
Definition subset (a b : Z) : Prop := Z.land a b = a.
Definition disjoint (a b : Z) : Prop := Z.land a b = 0.

End Int.

(** ** Constants of the platform headers

    [<termios.h>], [<fcntl.h>], [<poll.h>] and [<sys/ioctl.h>] are not part
    of the repository: their macros are parameters of the development. *)

Class Platform := {
  (* line speeds *)
  B9600 : Z; B19200 : Z; B38400 : Z; B57600 : Z; B115200 : Z;
  (* c_cflag *)
  CLOCAL : Z; CREAD : Z; CSIZE : Z; CS8 : Z; PARENB : Z; CSTOPB : Z;
  CRTSCTS : Z;
  (* c_iflag *)
  IGNBRK : Z; BRKINT : Z; PARMRK : Z; ISTRIP : Z; INLCR : Z; IGNCR : Z;
  ICRNL : Z; IXON : Z;
  (* c_lflag *)
  ECHO : Z; ECHONL : Z; ICANON : Z; ISIG : Z; IEXTEN : Z;
  (* c_oflag *)
  OPOST : Z;
  (* c_cc subscripts and size *)
  VMIN : nat; VTIME : nat; NCCS : nat;
  (* tcsetattr action *)
  TCSANOW : Z;
  (* open, ioctl, fcntl, poll *)
  O_RDWR : Z; O_NOCTTY : Z; O_NONBLOCK : Z;
  TIOCEXCL : Z; F_SETFL : Z; POLLIN : Z
}.

(** The values of Linux ([asm-generic/termbits.h] and friends). *)
Definition linux : Platform := {|
  B9600 := 13; B19200 := 14; B38400 := 15; B57600 := 4097; B115200 := 4098;
  CLOCAL := 2048; CREAD := 128; CSIZE := 48; CS8 := 48; PARENB := 256;
  CSTOPB := 64; CRTSCTS := 2147483648;
  IGNBRK := 1; BRKINT := 2; PARMRK := 8; ISTRIP := 32; INLCR := 64;
  IGNCR := 128; ICRNL := 256; IXON := 1024;
  ECHO := 8; ECHONL := 64; ICANON := 2; ISIG := 1; IEXTEN := 32768;
  OPOST := 1;
  VMIN := 6; VTIME := 5; NCCS := 32;
  TCSANOW := 0;
  O_RDWR := 2; O_NOCTTY := 256; O_NONBLOCK := 2048;
  TIOCEXCL := 21516; F_SETFL := 4; POLLIN := 1
|}.

(** ** The baud enumeration

    [enum helium_baud] is declared in [helium-client/helium-client.h], which
    is not part of the repository: the values of its six enumerators are
    parameters.  A C enumeration is an integer type, so a selector is a [Z]. *)

Class BaudEnum := {
  helium_baud_b9600 : Z;
  helium_baud_b14400 : Z;
  helium_baud_b19200 : Z;
  helium_baud_b38400 : Z;
  helium_baud_b57600 : Z;
  helium_baud_b115200 : Z
}.

(** Enumerators numbered in declaration order. *)
Definition baud_in_order : BaudEnum := {|
  helium_baud_b9600 := 0;
  helium_baud_b14400 := 1;
  helium_baud_b19200 := 2;
  helium_baud_b38400 := 3;
  helium_baud_b57600 := 4;
  helium_baud_b115200 := 5
|}.

Definition enumerators `{BaudEnum} : list Z :=
  [helium_baud_b9600; helium_baud_b14400; helium_baud_b19200;
   helium_baud_b38400; helium_baud_b57600; helium_baud_b115200].

(** The case labels of a [switch] are pairwise distinct (a constraint of C). *)
Definition distinct_labels `{BaudEnum} : Prop := NoDup enumerators.

(** ** [struct termios] *)

Record termios := {
  c_iflag : Z;
  c_oflag : Z;
  c_cflag : Z;
  c_lflag : Z;
  c_line : Z;
  c_cc : list Z;
  c_ispeed : Z;
  c_ospeed : Z
}.

Definition with_iflag (t : termios) (v : Z) : termios :=
  {| c_iflag := v; c_oflag := c_oflag t; c_cflag := c_cflag t;
     c_lflag := c_lflag t; c_line := c_line t; c_cc := c_cc t;
     c_ispeed := c_ispeed t; c_ospeed := c_ospeed t |}.
Definition with_oflag (t : termios) (v : Z) : termios :=
  {| c_iflag := c_iflag t; c_oflag := v; c_cflag := c_cflag t;
     c_lflag := c_lflag t; c_line := c_line t; c_cc := c_cc t;
     c_ispeed := c_ispeed t; c_ospeed := c_ospeed t |}.
Definition with_cflag (t : termios) (v : Z) : termios :=
  {| c_iflag := c_iflag t; c_oflag := c_oflag t; c_cflag := v;
     c_lflag := c_lflag t; c_line := c_line t; c_cc := c_cc t;
     c_ispeed := c_ispeed t; c_ospeed := c_ospeed t |}.
Definition with_lflag (t : termios) (v : Z) : termios :=
  {| c_iflag := c_iflag t; c_oflag := c_oflag t; c_cflag := c_cflag t;
     c_lflag := v; c_line := c_line t; c_cc := c_cc t;
     c_ispeed := c_ispeed t; c_ospeed := c_ospeed t |}.
Definition with_cc (t : termios) (i : nat) (v : Z) : termios :=
  {| c_iflag := c_iflag t; c_oflag := c_oflag t; c_cflag := c_cflag t;
     c_lflag := c_lflag t; c_line := c_line t; c_cc := <[i:=v]> (c_cc t);
     c_ispeed := c_ispeed t; c_ospeed := c_ospeed t |}.

(** ** The C library's speed setters

    [cfsetospeed] and [cfsetispeed] belong to the C library; how they store
    a speed in the structure is the library's business, so they are
    parameters.  Each returns its status and the updated structure. *)

Class Libc := {
  cfsetospeed : termios -> Z -> Z * termios;
  cfsetispeed : termios -> Z -> Z * termios
}.

(** A library that keeps the speeds in the [c_ospeed] and [c_ispeed]
    members and touches nothing else. *)
Definition stored_speed_libc : Libc := {|
  cfsetospeed t s :=
    (0, {| c_iflag := c_iflag t; c_oflag := c_oflag t; c_cflag := c_cflag t;
           c_lflag := c_lflag t; c_line := c_line t; c_cc := c_cc t;
           c_ispeed := c_ispeed t; c_ospeed := s |});
  cfsetispeed t s :=
    (0, {| c_iflag := c_iflag t; c_oflag := c_oflag t; c_cflag := c_cflag t;
           c_lflag := c_lflag t; c_line := c_line t; c_cc := c_cc t;
           c_ispeed := s; c_ospeed := c_ospeed t |})
|}.

(** ** System calls *)

(** What [read] did: an error (the call returns -1 and stores nothing) or
    the bytes it stored in the buffer (the call returns their number). *)
Inductive read_result :=
| read_error
| read_bytes (data : list byte).

Definition read_ret (r : read_result) : Z :=
  match r with
  | read_error => -1
  | read_bytes data => Z.of_nat (length data)
  end.

(** [read] never transfers more than it was asked for. *)
Definition read_within (count : Z) (r : read_result) : Prop :=
  read_ret r <= count.

(** A system call together with what it returned. *)
Inductive event :=
| ev_open (path : string) (flags ret : Z)
| ev_ioctl (fd request ret : Z)
| ev_fcntl (fd cmd arg ret : Z)
| ev_tcgetattr (fd ret : Z) (out : termios)
| ev_tcsetattr (fd action : Z) (attrs : termios) (ret : Z)
| ev_read (fd count : Z) (res : read_result)
| ev_write (fd : Z) (buf : list byte) (ret : Z)
| ev_poll (fd events nfds timeout ret revents : Z)
| ev_usleep (us ret : Z)
| ev_close (fd ret : Z).

(** The operating system: a deterministic transition per call. *)
Class OS (World : Type) := {
  os_open : string -> Z -> World -> Z * World;
  os_ioctl : Z -> Z -> World -> Z * World;
  os_fcntl : Z -> Z -> Z -> World -> Z * World;
  os_tcgetattr : Z -> World -> (Z * termios) * World;
  os_tcsetattr : Z -> Z -> termios -> World -> Z * World;
  os_read : Z -> Z -> World -> read_result * World;
  os_write : Z -> list byte -> World -> Z * World;
  (** one descriptor polled: returns the status and [revents] *)
  os_poll : Z -> Z -> Z -> World -> (Z * Z) * World;
  os_usleep : Z -> World -> Z * World;
  os_close : Z -> World -> Z * World
}.

(** ** The monad: the world and the calls made so far *)

Record machine (World : Type) := Machine {
  world : World;
  trace : list event
}.
Arguments Machine {World}.
Arguments world {World}.
Arguments trace {World}.

Definition M (World A : Type) : Type := machine World -> A * machine World.

Definition ret {World A} (a : A) : M World A := fun m => (a, m).

Definition bind {World A B} (c : M World A) (k : A -> M World B) : M World B :=
  fun m => let (a, m') := c m in k a m'.

Declare Scope sys_scope.
Delimit Scope sys_scope with sys.
Notation "x <- c ;; k" := (bind c (fun x => k))
  (at level 100, c at next level, right associativity) : sys_scope.

(** One system call: step the world and log the call with its result. *)
Definition syscall {World R} (step : World -> R * World) (log : R -> event)
  : M World R :=
  fun m => let (r, w) := step (world m) in
           (r, Machine w (trace m ++ [log r])).

Definition start {World} (w : World) : machine World := Machine w [].

(** ** The shim *)

Section Shim.

Context {P : Platform} {E : BaudEnum} {L : Libc}.
Context {World : Type} {O : OS World}.

Local Open Scope sys_scope.

Definition sys_open (path : string) (flags : Z) : M World Z :=
  syscall (os_open path flags) (ev_open path flags).
Definition sys_ioctl (fd request : Z) : M World Z :=
  syscall (os_ioctl fd request) (ev_ioctl fd request).
Definition sys_fcntl (fd cmd arg : Z) : M World Z :=
  syscall (os_fcntl fd cmd arg) (ev_fcntl fd cmd arg).
Definition sys_tcgetattr (fd : Z) : M World (Z * termios) :=
  syscall (os_tcgetattr fd) (fun r => ev_tcgetattr fd (fst r) (snd r)).
Definition sys_tcsetattr (fd action : Z) (t : termios) : M World Z :=
  syscall (os_tcsetattr fd action t) (ev_tcsetattr fd action t).
Definition sys_read (fd count : Z) : M World read_result :=
  syscall (os_read fd count) (ev_read fd count).
Definition sys_write (fd : Z) (buf : list byte) : M World Z :=
  syscall (os_write fd buf) (ev_write fd buf).
Definition sys_poll (fd events timeout : Z) : M World (Z * Z) :=
  syscall (os_poll fd events timeout)
          (fun r => ev_poll fd events 1 timeout (fst r) (snd r)).
Definition sys_usleep (us : Z) : M World Z :=
  syscall (os_usleep us) (ev_usleep us).
Definition sys_close (fd : Z) : M World Z :=
  syscall (os_close fd) (ev_close fd).

(** [(int)(intptr_t)param]: the context pointer carries the descriptor. *)
Definition fd_of_param (param : Z) : Z := Int.to_int param.

(** [helium_serial_readable] *)
Definition helium_serial_readable (param : Z) : M World bool :=
  r <- sys_poll (fd_of_param param) POLLIN (-1) ;;
  let '(n, revents) := r in
  if n =? 1 then ret (Int.to_bool (Z.land revents POLLIN))
  else ret false.

(** The buffer [*ch] after a [read] of one byte into it. *)
Definition stored (r : read_result) (ch : byte) : byte :=
  match r with
  | read_bytes (b :: _) => b
  | _ => ch
  end.

(** [helium_serial_getc]: the result and the contents of [*ch] afterwards. *)
Definition helium_serial_getc (param : Z) (ch : byte) : M World (bool * byte) :=
  r <- sys_read (fd_of_param param) 1 ;;
  ret (0 <? read_ret r, stored r ch).

(** [helium_serial_putc] *)
Definition helium_serial_putc (param : Z) (ch : byte) : M World bool :=
  n <- sys_write (fd_of_param param) [ch] ;;
  ret (n =? 1).

(** [helium_wait_us] *)
Definition helium_wait_us (param : Z) (us : Z) : M World unit :=
  _ <- sys_usleep us ;;
  ret tt.

(** [x |= m] and [x &= ~m] on a [tcflag_t]. *)
Definition set_bits (x m : Z) : Z := Int.to_u32 (Z.lor x m).
Definition clear_bits (x m : Z) : Z := Int.to_u32 (Z.land x (Z.lnot m)).

Definition iflag_cleared : Z :=
  Z.lor (Z.lor (Z.lor (Z.lor (Z.lor (Z.lor (Z.lor
    IGNBRK BRKINT) PARMRK) ISTRIP) INLCR) IGNCR) ICRNL) IXON.
Definition lflag_cleared : Z :=
  Z.lor (Z.lor (Z.lor (Z.lor ECHO ECHONL) ICANON) ISIG) IEXTEN.

(** The assignments of [_set_interface_attribs] between [tcgetattr] and
    [tcsetattr]. *)
Definition line_settings (speed : Z) (tty : termios) : termios :=
  let tty := snd (cfsetospeed tty (Int.to_u32 speed)) in
  let tty := snd (cfsetispeed tty (Int.to_u32 speed)) in
  let tty := with_cflag tty (set_bits (c_cflag tty) (Z.lor CLOCAL CREAD)) in
  let tty := with_cflag tty (clear_bits (c_cflag tty) CSIZE) in
  let tty := with_cflag tty (set_bits (c_cflag tty) CS8) in
  let tty := with_cflag tty (clear_bits (c_cflag tty) PARENB) in
  let tty := with_cflag tty (clear_bits (c_cflag tty) CSTOPB) in
  let tty := with_cflag tty (clear_bits (c_cflag tty) CRTSCTS) in
  let tty := with_iflag tty (clear_bits (c_iflag tty) iflag_cleared) in
  let tty := with_lflag tty (clear_bits (c_lflag tty) lflag_cleared) in
  let tty := with_oflag tty (clear_bits (c_oflag tty) OPOST) in
  let tty := with_cc tty VMIN 1 in
  let tty := with_cc tty VTIME 1 in
  tty.

(** [_set_interface_attribs] *)
Definition _set_interface_attribs (fd speed : Z) : M World Z :=
  g <- sys_tcgetattr fd ;;
  let '(r, tty) := g in
  if r <? 0 then ret (-1)
  else
    r <- sys_tcsetattr fd TCSANOW (line_settings speed tty) ;;
    if negb (r =? 0) then ret (-1) else ret 0.

(** The [switch] of [open_serial_port]: [baud_rate] starts as [B9600] and
    a matching case overwrites it. *)
Definition baud_rate (baud : Z) : Z :=
  Int.to_u32
    (if baud =? helium_baud_b9600 then B9600
     else if (baud =? helium_baud_b14400) || (baud =? helium_baud_b19200)
          then B19200
     else if baud =? helium_baud_b38400 then B38400
     else if baud =? helium_baud_b57600 then B57600
     else if baud =? helium_baud_b115200 then B115200
     else B9600).

(** [O_RDWR | O_NOCTTY | O_NONBLOCK] *)
Definition open_flags : Z := Z.lor (Z.lor O_RDWR O_NOCTTY) O_NONBLOCK.

(** [open_serial_port] *)
Definition open_serial_port (portname : string) (baud : Z) : M World Z :=
  fd <- sys_open portname open_flags ;;
  if fd <? 0 then ret (-1)
  else
    r <- sys_ioctl fd TIOCEXCL ;;
    if r <? 0 then ret (-1)
    else
      r <- sys_fcntl fd F_SETFL 0 ;;
      if r <? 0 then ret (-1)
      else
        r <- _set_interface_attribs fd (Int.to_int (baud_rate baud)) ;;
        if negb (r =? 0) then ret (-1) else ret fd.

(** [close_serial_port] *)
Definition close_serial_port (fd : Z) : M World unit :=
  _ <- sys_close fd ;;
  ret tt.

End Shim.


(** ** Reading a run *)

(** The result and the trace of a computation started in world [w]. *)
Definition result {World A} (c : M World A) (w : World) : A := fst (c (start w)).
Definition calls {World A} (c : M World A) (w : World) : list event :=
  trace (snd (c (start w))).

(** A call that reported failure (POSIX: a negative status). *)
Definition failed (e : event) : bool :=
  match e with
  | ev_open _ _ r | ev_ioctl _ _ r | ev_fcntl _ _ _ r
  | ev_tcgetattr _ r _ | ev_tcsetattr _ _ _ r => r <? 0
  | _ => false
  end.

(** The attribute structures handed to [tcsetattr], in order. *)
Definition commits (tr : list event) : list termios :=
  omap (fun e => match e with
                 | ev_tcsetattr _ _ t _ => Some t
                 | _ => None
                 end) tr.

(** The descriptors a trace leaves open: those a successful [open] returned
    and no successful [close] released. *)
Definition track (fds : list Z) (e : event) : list Z :=
  match e with
  | ev_open _ _ fd => if fd <? 0 then fds else fd :: fds
  | ev_close fd r => if r =? 0 then filter (fun x => x <> fd) fds else fds
  | _ => fds
  end.
Definition left_open (tr : list event) : list Z := foldl track [] tr.

Definition is_close (e : event) : bool :=
  match e with ev_close _ _ => true | _ => false end.

(** ** The line configuration *)

Section LineConfiguration.

Context {P : Platform}.

Definition eight_data_bits (t : termios) : Prop :=
  Z.land (c_cflag t) CSIZE = CS8.
Definition no_parity (t : termios) : Prop := Z.land (c_cflag t) PARENB = 0.
Definition one_stop_bit (t : termios) : Prop := Z.land (c_cflag t) CSTOPB = 0.
Definition no_flow_control (t : termios) : Prop :=
  Z.land (c_cflag t) CRTSCTS = 0.
Definition local_line (t : termios) : Prop :=
  Int.subset CLOCAL (c_cflag t) /\ Int.subset CREAD (c_cflag t).

(** Raw mode: no input translation, no echo, no line editing, no signals,
    no output processing. *)
Definition raw_iflags : list Z :=
  [IGNBRK; BRKINT; PARMRK; ISTRIP; INLCR; IGNCR; ICRNL; IXON].
Definition raw_lflags : list Z := [ECHO; ECHONL; ICANON; ISIG; IEXTEN].
Definition raw_mode (t : termios) : Prop :=
  Forall (fun f => Z.land (c_iflag t) f = 0) raw_iflags /\
  Forall (fun f => Z.land (c_lflag t) f = 0) raw_lflags /\
  Z.land (c_oflag t) OPOST = 0.

(** Reads return from one byte on, with an inter-byte timer of one tenth
    of a second. *)
Definition byte_reads (t : termios) : Prop :=
  c_cc t !! VMIN = Some 1 /\ c_cc t !! VTIME = Some 1.

Definition line_configuration (t : termios) : Prop :=
  eight_data_bits t /\ no_parity t /\ one_stop_bit t /\ no_flow_control t /\
  local_line t /\ raw_mode t /\ byte_reads t.

(** What the claims need of the header's [c_cflag] masks: [CS8] is a value
    of the [CSIZE] field, the flags set share no bit with the flags cleared
    after them, and the flags set fit the 32 bits of a [tcflag_t]. *)
Definition cflag_layout : Prop :=
  Int.subset CS8 CSIZE /\
  Int.disjoint (Z.lor CLOCAL CREAD) CSIZE /\
  Int.disjoint (Z.lor (Z.lor CLOCAL CREAD) CS8)
               (Z.lor (Z.lor PARENB CSTOPB) CRTSCTS) /\
  Int.is_u32 (Z.lor (Z.lor CLOCAL CREAD) CS8).

(** The structure holds 32-bit flag words. *)
Definition flags_u32 (t : termios) : Prop :=
  Int.is_u32 (c_iflag t) /\ Int.is_u32 (c_oflag t) /\
  Int.is_u32 (c_cflag t) /\ Int.is_u32 (c_lflag t).

(** [VMIN] and [VTIME] are subscripts of the structure's [c_cc]. *)
Definition cc_subscripts (t : termios) : Prop :=
  (VMIN < length (c_cc t))%nat /\ (VTIME < length (c_cc t))%nat.

(** The bits of [c_cflag] that [_set_interface_attribs] names. *)
Definition cflag_named : Z :=
  Z.lor (Z.lor (Z.lor (Z.lor (Z.lor (Z.lor
    CLOCAL CREAD) CSIZE) CS8) PARENB) CSTOPB) CRTSCTS.

(** [x'] agrees with [x] on every bit outside [named]. *)
Definition same_outside (named x x' : Z) : Prop :=
  forall n, 0 <= n -> Z.testbit named n = false ->
            Z.testbit x' n = Z.testbit x n.

End LineConfiguration.

Section Frame.

Context {P : Platform} {L : Libc}.

(** [t'] differs from [t] at most in the named bits and in the [VMIN] and
    [VTIME] control characters. *)
Definition only_named_changed (t t' : termios) : Prop :=
  same_outside cflag_named (c_cflag t) (c_cflag t') /\
  same_outside iflag_cleared (c_iflag t) (c_iflag t') /\
  same_outside lflag_cleared (c_lflag t) (c_lflag t') /\
  same_outside OPOST (c_oflag t) (c_oflag t') /\
  (forall i : nat, i <> VMIN -> i <> VTIME -> c_cc t' !! i = c_cc t !! i) /\
  c_line t' = c_line t /\
  c_ispeed t' = c_ispeed t /\
  c_ospeed t' = c_ospeed t.

(** The structure after [cfsetospeed] and [cfsetispeed]. *)
Definition with_speed (speed : Z) (tty : termios) : termios :=
  snd (cfsetispeed (snd (cfsetospeed tty speed)) speed).

(** The frame of the line-configuration step, with the named bits and
    control characters as its only exceptions. *)
Definition only_named_bits_change : Prop :=
  forall (speed : Z) (tty : termios),
    flags_u32 tty -> only_named_changed tty (line_settings speed tty).

End Frame.

(** ** The fallback policy of the specification

    The nominal rates the enumeration names, the line speeds the platform
    supports (slowest first, with their constants), and the supported speed
    next above a nominal rate. *)

Section Fallback.

Context {P : Platform}.

Definition nominal_rates : list Z := [9600; 14400; 19200; 38400; 57600; 115200].

Definition supported_speeds : list (Z * Z) :=
  [(9600, B9600); (19200, B19200); (38400, B38400); (57600, B57600);
   (115200, B115200)].

Definition next_faster (bps : Z) : option Z :=
  snd <$> head (filter (fun p => bps < fst p) supported_speeds).

(** [s] is the constant of the nearest supported speed faster than one of
    the nominal rates. *)
Definition nearest_faster_b (s : Z) : bool :=
  existsb (fun q => match next_faster q with
                    | Some s' => s =? s'
                    | None => false
                    end) nominal_rates.

End Fallback.

(** ** A scripted operating system

    The world is a script of statuses: every call returns the next one
    (-1 when the script is over).  [tcgetattr] reports the stored
    attributes, a successful [tcsetattr] stores them, [read] takes its
    bytes from the pending input, [poll] takes two entries (status and
    [revents]). *)

Record script := Script {
  codes : list Z;
  attrs : termios;
  input : list byte
}.

Definition next_code (w : script) : Z * script :=
  match codes w with
  | [] => (-1, w)
  | c :: cs => (c, Script cs (attrs w) (input w))
  end.

Definition scripted : OS script := {|
  os_open _ _ := next_code;
  os_ioctl _ _ := next_code;
  os_fcntl _ _ _ := next_code;
  os_tcgetattr _ w := let (c, w') := next_code w in ((c, attrs w), w');
  os_tcsetattr _ _ t w :=
    let (c, w') := next_code w in
    (c, if c =? 0 then Script (codes w') t (input w') else w');
  os_read _ _ w :=
    let (c, w') := next_code w in
    if c <? 0 then (read_error, w')
    else (read_bytes (take (Z.to_nat c) (input w')),
          Script (codes w') (attrs w') (drop (Z.to_nat c) (input w')));
  os_write _ _ := next_code;
  os_poll _ _ _ w :=
    let (c, w') := next_code w in
    let (r, w'') := next_code w' in ((c, r), w'');
  os_usleep _ := next_code;
  os_close _ := next_code
|}.

(** The attributes of a freshly opened Linux serial line (9600 baud,
    cooked mode). *)
Definition cooked_tty : termios := {|
  c_iflag := 1280; c_oflag := 5; c_cflag := 3261; c_lflag := 35387;
  c_line := 0; c_cc := replicate 32 0; c_ispeed := 13; c_ospeed := 13
|}.

(** ** The runs of [open_serial_port]

    One constructor per exit of the function: the status it returns and
    the calls it has made when it leaves there. *)

Section Runs.

Context {P : Platform} {E : BaudEnum} {L : Libc}.

Inductive open_run (portname : string) (baud : Z) : Z -> list event -> Prop :=
| run_no_device fd :
    fd < 0 ->
    open_run portname baud (-1) [ev_open portname open_flags fd]
| run_no_exclusive fd r1 :
    0 <= fd -> r1 < 0 ->
    open_run portname baud (-1)
      [ev_open portname open_flags fd; ev_ioctl fd TIOCEXCL r1]
| run_no_setfl fd r1 r2 :
    0 <= fd -> 0 <= r1 -> r2 < 0 ->
    open_run portname baud (-1)
      [ev_open portname open_flags fd; ev_ioctl fd TIOCEXCL r1;
       ev_fcntl fd F_SETFL 0 r2]
| run_no_getattr fd r1 r2 r3 tty :
    0 <= fd -> 0 <= r1 -> 0 <= r2 -> r3 < 0 ->
    open_run portname baud (-1)
      [ev_open portname open_flags fd; ev_ioctl fd TIOCEXCL r1;
       ev_fcntl fd F_SETFL 0 r2; ev_tcgetattr fd r3 tty]
| run_no_setattr fd r1 r2 r3 tty r4 :
    0 <= fd -> 0 <= r1 -> 0 <= r2 -> 0 <= r3 -> r4 <> 0 ->
    open_run portname baud (-1)
      [ev_open portname open_flags fd; ev_ioctl fd TIOCEXCL r1;
       ev_fcntl fd F_SETFL 0 r2; ev_tcgetattr fd r3 tty;
       ev_tcsetattr fd TCSANOW (line_settings (baud_rate baud) tty) r4]
| run_opened fd r1 r2 r3 tty :
    0 <= fd -> 0 <= r1 -> 0 <= r2 -> 0 <= r3 ->
    open_run portname baud fd
      [ev_open portname open_flags fd; ev_ioctl fd TIOCEXCL r1;
       ev_fcntl fd F_SETFL 0 r2; ev_tcgetattr fd r3 tty;
       ev_tcsetattr fd TCSANOW (line_settings (baud_rate baud) tty) 0].

End Runs.

(** ** What the specification says of the selectors *)

Section Selectors.

Context {P : Platform} {E : BaudEnum}.

(** The line-speed constants are values of [speed_t]. *)
Definition speeds_u32 : Prop :=
  Forall Int.is_u32 [B9600; B19200; B38400; B57600; B115200].

(** Each selector with the constant the specification gives it: its own
    nominal speed, and 19200 for the 14400 selector. *)
Definition specified_speed : list (Z * Z) :=
  [(helium_baud_b9600, B9600); (helium_baud_b14400, B19200);
   (helium_baud_b19200, B19200); (helium_baud_b38400, B38400);
   (helium_baud_b57600, B57600); (helium_baud_b115200, B115200)].

(** The specification's sentence on values outside the enumeration. *)
Definition unknown_selectors_go_faster : Prop :=
  forall v : Z, v ∉ enumerators -> nearest_faster_b (baud_rate v) = true.

End Selectors.

(** ** Sample scripts

    A line that opens as descriptor 3 and accepts every call; a line whose
    exclusive-access request is refused; a line already configured; a line
    with the byte 'A' pending; a line that polls ready for input. *)

Definition usb0 : string := "/dev/ttyUSB0".
Definition working_line : script := Script [3; 0; 0; 0; 0] cooked_tty [].
Definition busy_line : script := Script [3; -1] cooked_tty [].
Definition open_line : script := Script [0; 0] cooked_tty [].
Definition pending_A : script := Script [1] cooked_tty [x41].
Definition ready_line : script := Script [1; 1] cooked_tty [].

(** ** More ways to read a run *)

(** A call whose status [open_serial_port] or [_set_interface_attribs]
    takes for a failure: negative for [open], [ioctl], [fcntl] and
    [tcgetattr], anything but 0 for [tcsetattr]. *)
Definition refused (e : event) : bool :=
  match e with
  | ev_open _ _ r | ev_ioctl _ _ r | ev_fcntl _ _ _ r
  | ev_tcgetattr _ r _ => r <? 0
  | ev_tcsetattr _ _ _ r => negb (r =? 0)
  | _ => false
  end.

(** The descriptor a call was made on ([open] takes a path, [usleep] a
    duration). *)
Definition descriptor_of (e : event) : option Z :=
  match e with
  | ev_ioctl fd _ _ | ev_fcntl fd _ _ _ | ev_tcgetattr fd _ _
  | ev_tcsetattr fd _ _ _ | ev_read fd _ _ | ev_write fd _ _
  | ev_poll fd _ _ _ _ _ | ev_close fd _ => Some fd
  | ev_open _ _ _ | ev_usleep _ _ => None
  end.

(** The values of [int]. *)
Definition is_int (x : Z) : Prop := - 2 ^ 31 <= x < 2 ^ 31.

Section SpeedSetters.

Context {P : Platform} {L : Libc}.

(** The five line-speed constants, as values of [speed_t]. *)
Definition speed_constants : list Z :=
  Int.to_u32 <$> [B9600; B19200; B38400; B57600; B115200].

(** A C library whose setters store the speed where [c_ospeed] and
    [c_ispeed] show it, the input setter leaving the output speed alone. *)
Definition setters_store_speed : Prop :=
  (forall t s, c_ospeed (snd (cfsetospeed t s)) = s) /\
  (forall t s, c_ispeed (snd (cfsetispeed t s)) = s /\
               c_ospeed (snd (cfsetispeed t s)) = c_ospeed t).

End SpeedSetters.


(** A line whose attributes cannot be committed, and whose [close] of the
    value returned then succeeds. *)
Definition stuck_line : script := Script [3; 0; 0; 0; -1; 0] cooked_tty [].
(** * Properties *)

(** ** Bits of 32-bit values *)

Module Bits.

Import Int.

Lemma testbit_to_u32 x n :
  0 <= n -> Z.testbit (Int.to_u32 x) n = (n <? 32) && Z.testbit x n.
Proof. intros Hn. unfold Int.to_u32. apply Z.testbit_mod_pow2. lia. Qed.

Lemma u32_high x n : Int.is_u32 x -> 32 <= n -> Z.testbit x n = false.
Proof.
  intros Hx Hn. rewrite <- (Z.mod_small x (2 ^ 32)) by exact Hx.
  apply Z.mod_pow2_bits_high. lia.
Qed.

Lemma u32_bit x n :
  Int.is_u32 x -> 0 <= n -> Z.testbit x n = (n <? 32) && Z.testbit x n.
Proof.
  intros Hx Hn. destruct (Z.ltb_spec n 32) as [Hlt|Hge]; [reflexivity|].
  simpl. apply u32_high; assumption.
Qed.

Lemma to_u32_range x : Int.is_u32 (Int.to_u32 x).
Proof. unfold Int.is_u32, Int.to_u32. apply Z.mod_pos_bound. lia. Qed.

Lemma to_u32_id x : Int.is_u32 x -> Int.to_u32 x = x.
Proof. intros Hx. apply Z.mod_small. exact Hx. Qed.

(** Passing a [speed_t] through an [int] parameter and casting it back. *)
Lemma speed_through_int x : Int.to_u32 (Int.to_int (Int.to_u32 x)) = Int.to_u32 x.
Proof.
  unfold Int.to_int, Int.to_u32.
  rewrite Zminus_mod_idemp_l.
  replace (x mod 2 ^ 32 + 2 ^ 31 - 2 ^ 31) with (x mod 2 ^ 32) by lia.
  apply Z.mod_mod. lia.
Qed.

Lemma subset_bit a b n :
  subset a b -> Z.testbit a n = true -> Z.testbit b n = true.
Proof.
  unfold subset. intros H Ha.
  assert (Hn : Z.testbit (Z.land a b) n = true) by (rewrite H; exact Ha).
  rewrite Z.land_spec in Hn. apply andb_true_iff in Hn. tauto.
Qed.

Lemma disjoint_bit a b n :
  disjoint a b -> Z.testbit a n = true -> Z.testbit b n = false.
Proof.
  unfold disjoint. intros H Ha.
  assert (Hn : Z.testbit (Z.land a b) n = false)
    by (rewrite H; apply Z.bits_0).
  rewrite Z.land_spec, Ha in Hn. exact Hn.
Qed.

Lemma subset_intro a b :
  (forall n, 0 <= n -> Z.testbit a n = true -> Z.testbit b n = true) ->
  subset a b.
Proof.
  intros H. apply Z.bits_inj'. intros n Hn. rewrite Z.land_spec.
  destruct (Z.testbit a n) eqn:Ha; [|reflexivity].
  rewrite (H n Hn Ha). reflexivity.
Qed.

Lemma disjoint_intro a b :
  (forall n, 0 <= n -> Z.testbit a n = true -> Z.testbit b n = false) ->
  disjoint a b.
Proof.
  intros H. apply Z.bits_inj'. intros n Hn.
  rewrite Z.land_spec, Z.bits_0.
  destruct (Z.testbit a n) eqn:Ha; [|reflexivity].
  rewrite (H n Hn Ha). reflexivity.
Qed.

Lemma subset_lor_l a b c : subset a b -> subset a (Z.lor b c).
Proof.
  intros H. apply subset_intro. intros n _ Ha.
  rewrite Z.lor_spec, (subset_bit _ _ _ H Ha). reflexivity.
Qed.

Lemma subset_lor_r a b : subset a (Z.lor b a).
Proof.
  apply subset_intro. intros n _ Ha. rewrite Z.lor_spec, Ha.
  apply orb_true_r.
Qed.

Lemma disjoint_lor_inv a b c :
  disjoint (Z.lor a b) c -> disjoint a c /\ disjoint b c.
Proof.
  intros H. split; apply disjoint_intro; intros n _ Hb;
    apply (disjoint_bit _ _ n H); rewrite Z.lor_spec, Hb;
    auto using orb_true_r.
Qed.

(** A power of two has one bit: masking with it tests that bit. *)
Lemma land_pow2_nonzero x k :
  0 <= k -> Z.land x (2 ^ k) <> 0 <-> Z.testbit x k = true.
Proof.
  intros Hk. split.
  - intros Hne. destruct (Z.testbit x k) eqn:Hx; [reflexivity|].
    exfalso. apply Hne. apply Z.bits_inj'. intros n Hn.
    rewrite Z.land_spec, Z.bits_0, Z.pow2_bits_eqb by exact Hk.
    destruct (Z.eqb_spec k n) as [->|]; [rewrite Hx|]; btauto.
  - intros Hx Heq.
    assert (Hb : Z.testbit (Z.land x (2 ^ k)) k = false)
      by (rewrite Heq; apply Z.bits_0).
    rewrite Z.land_spec, Hx, Z.pow2_bits_true in Hb by exact Hk.
    discriminate.
Qed.

End Bits.

(** ** Running the shim *)

Section Running.

Context {P : Platform} {E : BaudEnum} {L : Libc}.
Context {World : Type} {O : OS World}.

Lemma line_settings_cast (s : Z) (tty : termios) :
  line_settings (Int.to_int (baud_rate s)) tty = line_settings (baud_rate s) tty.
Proof.
  unfold line_settings, baud_rate.
  rewrite Bits.speed_through_int.
  rewrite (Bits.to_u32_id (Int.to_u32 _)) by apply Bits.to_u32_range.
  reflexivity.
Qed.

(** The two halves of [_set_interface_attribs]. *)
Lemma set_interface_attribs_unfold (fd speed : Z) (m : machine World) :
  _set_interface_attribs fd speed m =
  let '(g, w1) := os_tcgetattr fd (world m) in
  let tr1 := trace m ++ [ev_tcgetattr fd (fst g) (snd g)] in
  if fst g <? 0 then (-1, Machine w1 tr1)
  else
    let '(r, w2) := os_tcsetattr fd TCSANOW (line_settings speed (snd g)) w1 in
    let tr2 := tr1 ++ [ev_tcsetattr fd TCSANOW (line_settings speed (snd g)) r] in
    (if r =? 0 then 0 else -1, Machine w2 tr2).
Proof.
  unfold _set_interface_attribs, bind, sys_tcgetattr, sys_tcsetattr, syscall, ret.
  destruct (os_tcgetattr fd (world m)) as [[r0 tty] w1]. simpl.
  destruct (r0 <? 0); [reflexivity|]. simpl.
  destruct (os_tcsetattr _ _ _ w1) as [r w2].
  destruct (r =? 0); reflexivity.
Qed.

(** Every run of [open_serial_port] leaves by one of its six exits. *)
Lemma open_serial_port_run (portname : string) (baud : Z) (w : World) :
  open_run portname baud
    (result (open_serial_port portname baud) w)
    (calls (open_serial_port portname baud) w).
Proof.
  unfold result, calls, open_serial_port, bind, start.
  unfold sys_open, sys_ioctl, sys_fcntl, syscall, ret. simpl.
  destruct (os_open portname open_flags w) as [fd w0].
  destruct (Z.ltb_spec fd 0) as [Hfd|Hfd]; simpl.
  { apply run_no_device; assumption. }
  destruct (os_ioctl fd TIOCEXCL w0) as [r1 w1].
  destruct (Z.ltb_spec r1 0) as [H1|H1]; simpl.
  { apply run_no_exclusive; assumption. }
  destruct (os_fcntl fd F_SETFL 0 w1) as [r2 w2].
  destruct (Z.ltb_spec r2 0) as [H2|H2]; simpl.
  { apply run_no_setfl; assumption. }
  rewrite set_interface_attribs_unfold. simpl.
  destruct (os_tcgetattr fd w2) as [[r3 tty] w3]. simpl.
  destruct (Z.ltb_spec r3 0) as [H3|H3]; simpl.
  { apply run_no_getattr; assumption. }
  rewrite line_settings_cast.
  destruct (os_tcsetattr _ _ _ w3) as [r4 w4].
  destruct (Z.eqb_spec r4 0) as [->|H4]; simpl.
  - apply run_opened; assumption.
  - apply run_no_setattr; assumption.
Qed.

End Running.

(** ** The baud selector *)

Section Selector.

Context {P : Platform} {E : BaudEnum} {L : Libc}.
Context {World : Type} {O : OS World}.

(** Whatever [open_serial_port] commits was built from the attributes read,
    with the speed its [switch] chose. *)
Lemma open_commits_resolved (portname : string) (baud : Z) (w : World) t :
  t ∈ commits (calls (open_serial_port portname baud) w) ->
  exists tty, t = line_settings (baud_rate baud) tty.
Proof.
  intros Ht.
  destruct (open_serial_port_run portname baud w); simpl in Ht;
    try (apply elem_of_nil in Ht; contradiction);
    apply list_elem_of_singleton in Ht; eauto.
Qed.

Lemma baud_rate_unknown (v : Z) :
  v ∉ enumerators -> baud_rate v = Int.to_u32 B9600.
Proof.
  unfold enumerators, baud_rate. intros Hv.
  repeat (apply not_elem_of_cons in Hv; destruct Hv as [? Hv]).
  repeat match goal with
         | H : v <> ?x |- _ => apply Z.eqb_neq in H; rewrite H; clear H
         end.
  reflexivity.
Qed.

(** C1: every selector of the enumeration is resolved to the constant of
    its own nominal speed, except the 14400 selector, which is resolved to
    the 19200 constant; and that constant is the speed of whatever line
    attributes [open_serial_port] then commits. *)
Theorem baud_selector_resolution (sel speed : Z) :
  distinct_labels -> speeds_u32 ->
  (sel, speed) ∈ specified_speed ->
  baud_rate sel = speed /\
  forall (portname : string) (w : World) t,
    t ∈ commits (calls (open_serial_port portname sel) w) ->
    exists tty, t = line_settings speed tty.
Proof.
  intros Hd Hu Hin.
  assert (Hb : baud_rate sel = speed).
  { unfold distinct_labels, enumerators in Hd.
    unfold speeds_u32 in Hu.
    repeat match goal with
           | H : NoDup (_ :: _) |- _ =>
               apply NoDup_cons in H; destruct H as [? H]
           | H : _ ∉ _ :: _ |- _ =>
               apply not_elem_of_cons in H; destruct H as [? H]
           | H : Forall _ (_ :: _) |- _ =>
               apply Forall_cons in H; destruct H as [? H]
           end.
    unfold specified_speed in Hin.
    repeat (apply elem_of_cons in Hin; destruct Hin as [Hin|Hin];
            [injection Hin as -> ->|]);
      try (apply elem_of_nil in Hin; contradiction);
      unfold baud_rate;
      repeat match goal with
             | |- context [?a =? ?a] => rewrite (Z.eqb_refl a)
             | H : ?a <> ?b |- context [?a =? ?b] =>
                 rewrite (proj2 (Z.eqb_neq a b) H)
             | H : ?b <> ?a |- context [?a =? ?b] =>
                 rewrite (proj2 (Z.eqb_neq a b) (not_eq_sym H))
             end; simpl; rewrite ?orb_true_r;
      apply Bits.to_u32_id; assumption. }
  split; [exact Hb|].
  intros portname w t Ht. rewrite <- Hb.
  eapply open_commits_resolved; eassumption.
Qed.

(** A run of [open_serial_port] depends on the selector only through the
    speed its [switch] chooses. *)
Lemma open_serial_port_by_speed (portname : string) (b1 b2 : Z)
    (m : machine World) :
  baud_rate b1 = baud_rate b2 ->
  open_serial_port portname b1 m = open_serial_port portname b2 m.
Proof.
  intros Hb. unfold open_serial_port, bind.
  destruct (sys_open portname open_flags m) as [fd m0].
  destruct (fd <? 0); [reflexivity|].
  destruct (sys_ioctl fd TIOCEXCL m0) as [r1 m1].
  destruct (r1 <? 0); [reflexivity|].
  destruct (sys_fcntl fd F_SETFL 0 m1) as [r2 m2].
  destruct (r2 <? 0); [reflexivity|].
  rewrite Hb. reflexivity.
Qed.

(** C2, as amended: a selector value outside the enumeration matches no
    case of the switch, so it is resolved to the initial value of
    [baud_rate], the 9600 constant, and not to a faster rate; nothing
    fails on its account: [open_serial_port] runs with it exactly as it
    runs with the 9600 selector (same result, same calls, same final
    state), and whatever it commits carries the 9600 constant. *)
Theorem unknown_selector_default (v : Z) :
  v ∉ enumerators -> Int.is_u32 B9600 ->
  baud_rate v = B9600 /\
  (forall (portname : string) (m : machine World),
     open_serial_port portname v m =
       open_serial_port portname helium_baud_b9600 m) /\
  forall (portname : string) (w : World) t,
    t ∈ commits (calls (open_serial_port portname v) w) ->
    exists tty, t = line_settings B9600 tty.
Proof.
  intros Hv Hu.
  assert (Hb : baud_rate v = B9600).
  { rewrite baud_rate_unknown by exact Hv. apply Bits.to_u32_id, Hu. }
  split; [exact Hb|]. split.
  - intros portname m. apply open_serial_port_by_speed.
    rewrite (baud_rate_unknown v Hv). unfold baud_rate.
    rewrite Z.eqb_refl. reflexivity.
  - intros portname w t Ht. rewrite <- Hb.
    eapply open_commits_resolved; eassumption.
Qed.

End Selector.

(** C2, as stated, fails: on Linux, with the enumerators numbered in
    declaration order, the value 6 is resolved to the 9600 constant, the
    slowest supported speed, which is the next faster speed of no rate. *)
Lemma unknown_selector_not_faster :
  ~ @unknown_selectors_go_faster linux baud_in_order.
Proof.
  intros H. specialize (H 6).
  assert (Hv : 6 ∉ @enumerators baud_in_order).
  { unfold enumerators. simpl. intros Hin.
    repeat (apply elem_of_cons in Hin; destruct Hin as [Hin|Hin];
            [discriminate|]).
    apply elem_of_nil in Hin. exact Hin. }
  specialize (H Hv). vm_compute in H. discriminate.
Qed.

(** ** The line settings *)

Section Settings.

Context {P : Platform} {L : Libc}.

Lemma testbit_set_bits x m n :
  0 <= n ->
  Z.testbit (set_bits x m) n = (n <? 32) && (Z.testbit x n || Z.testbit m n).
Proof.
  intros Hn. unfold set_bits.
  rewrite Bits.testbit_to_u32, Z.lor_spec by exact Hn. reflexivity.
Qed.

Lemma testbit_clear_bits x m n :
  0 <= n ->
  Z.testbit (clear_bits x m) n =
  (n <? 32) && (Z.testbit x n && negb (Z.testbit m n)).
Proof.
  intros Hn. unfold clear_bits.
  rewrite Bits.testbit_to_u32, Z.land_spec, Z.lnot_spec by exact Hn.
  reflexivity.
Qed.

(** Clearing a mask clears every flag inside it. *)
Lemma clear_bits_clears x m f : Int.subset f m -> Z.land (clear_bits x m) f = 0.
Proof.
  intros Hf. apply Bits.disjoint_intro. intros n Hn Hx.
  rewrite testbit_clear_bits in Hx by exact Hn.
  destruct (Z.testbit f n) eqn:Hfn; [|reflexivity].
  rewrite (Bits.subset_bit _ _ _ Hf Hfn) in Hx.
  rewrite andb_false_r, andb_false_r in Hx. discriminate.
Qed.

(** Clearing a mask keeps the bits outside it. *)
Lemma clear_bits_frame x m : Int.is_u32 x -> same_outside m x (clear_bits x m).
Proof.
  intros Hx n Hn Hm.
  rewrite testbit_clear_bits, Hm, (Bits.u32_bit x n Hx Hn) by exact Hn.
  btauto.
Qed.

(** The fields of the structure that [line_settings] builds. *)
Lemma line_settings_cflag speed tty :
  c_cflag (line_settings speed tty) =
  clear_bits (clear_bits (clear_bits (set_bits (clear_bits (set_bits
    (c_cflag (with_speed (Int.to_u32 speed) tty))
    (Z.lor CLOCAL CREAD)) CSIZE) CS8) PARENB) CSTOPB) CRTSCTS.
Proof. reflexivity. Qed.

Lemma line_settings_iflag speed tty :
  c_iflag (line_settings speed tty) =
  clear_bits (c_iflag (with_speed (Int.to_u32 speed) tty)) iflag_cleared.
Proof. reflexivity. Qed.

Lemma line_settings_lflag speed tty :
  c_lflag (line_settings speed tty) =
  clear_bits (c_lflag (with_speed (Int.to_u32 speed) tty)) lflag_cleared.
Proof. reflexivity. Qed.

Lemma line_settings_oflag speed tty :
  c_oflag (line_settings speed tty) =
  clear_bits (c_oflag (with_speed (Int.to_u32 speed) tty)) OPOST.
Proof. reflexivity. Qed.

Lemma line_settings_cc speed tty :
  c_cc (line_settings speed tty) =
  <[VTIME:=1]> (<[VMIN:=1]> (c_cc (with_speed (Int.to_u32 speed) tty))).
Proof. reflexivity. Qed.

(** Bit [n] of the committed [c_cflag]. *)
Lemma line_settings_cflag_bit speed tty n :
  0 <= n ->
  Z.testbit (c_cflag (line_settings speed tty)) n =
  (n <? 32) &&
  ((((Z.testbit (c_cflag (with_speed (Int.to_u32 speed) tty)) n
      || Z.testbit (Z.lor CLOCAL CREAD) n)
     && negb (Z.testbit CSIZE n))
    || Z.testbit CS8 n)
   && negb (Z.testbit (Z.lor (Z.lor PARENB CSTOPB) CRTSCTS) n)).
Proof.
  intros Hn. rewrite line_settings_cflag.
  rewrite !testbit_clear_bits, !testbit_set_bits, !testbit_clear_bits,
    !testbit_set_bits by exact Hn.
  rewrite !Z.lor_spec. btauto.
Qed.

(** A bit that is set and kept: what the layout says of it. *)
Lemma kept_bit n :
  cflag_layout -> 0 <= n ->
  Z.testbit (Z.lor (Z.lor CLOCAL CREAD) CS8) n = true ->
  (n <? 32) = true /\
  Z.testbit (Z.lor (Z.lor PARENB CSTOPB) CRTSCTS) n = false.
Proof.
  intros (_ & _ & Hdis & Hu) Hn Hk. split.
  - destruct (Z.ltb_spec n 32) as [|Hge]; [reflexivity|].
    rewrite (Bits.u32_high _ n Hu Hge) in Hk. discriminate.
  - exact (Bits.disjoint_bit _ _ n Hdis Hk).
Qed.

Lemma line_settings_eight_data_bits speed tty :
  cflag_layout -> eight_data_bits (line_settings speed tty).
Proof.
  intros Hl. unfold eight_data_bits. apply Z.bits_inj'. intros n Hn.
  rewrite Z.land_spec, line_settings_cflag_bit by exact Hn.
  destruct (Z.testbit CS8 n) eqn:H8.
  - assert (Hk : Z.testbit (Z.lor (Z.lor CLOCAL CREAD) CS8) n = true)
      by (rewrite Z.lor_spec, H8; apply orb_true_r).
    destruct (kept_bit n Hl Hn Hk) as [-> ->].
    destruct Hl as (Hsub & _).
    rewrite (Bits.subset_bit _ _ n Hsub H8). btauto.
  - btauto.
Qed.

Lemma line_settings_drops speed tty f :
  Int.subset f (Z.lor (Z.lor PARENB CSTOPB) CRTSCTS) ->
  Z.land (c_cflag (line_settings speed tty)) f = 0.
Proof.
  intros Hf. apply Bits.disjoint_intro. intros n Hn Hx.
  rewrite line_settings_cflag_bit in Hx by exact Hn.
  destruct (Z.testbit f n) eqn:Hfn; [|reflexivity].
  rewrite (Bits.subset_bit _ _ _ Hf Hfn) in Hx.
  rewrite !andb_false_r in Hx. discriminate.
Qed.

Lemma line_settings_keeps speed tty f :
  cflag_layout -> Int.subset f (Z.lor CLOCAL CREAD) ->
  Int.subset f (c_cflag (line_settings speed tty)).
Proof.
  intros Hl Hf. apply Bits.subset_intro. intros n Hn Hfn.
  rewrite line_settings_cflag_bit by exact Hn.
  pose proof (Bits.subset_bit _ _ n Hf Hfn) as Hlc.
  assert (Hk : Z.testbit (Z.lor (Z.lor CLOCAL CREAD) CS8) n = true)
    by (rewrite Z.lor_spec, Hlc; reflexivity).
  destruct (kept_bit n Hl Hn Hk) as [-> ->].
  destruct Hl as (_ & Hdis & _).
  rewrite (Bits.disjoint_bit _ _ n Hdis Hlc), Hlc. btauto.
Qed.

Lemma subset_refl a : Int.subset a a.
Proof. apply Z.land_diag. Qed.

Lemma subset_lor_here a b : Int.subset a (Z.lor a b).
Proof. apply Bits.subset_lor_l, subset_refl. Qed.

Lemma line_settings_raw speed tty : raw_mode (line_settings speed tty).
Proof.
  unfold raw_mode, raw_iflags, raw_lflags.
  rewrite line_settings_iflag, line_settings_lflag, line_settings_oflag.
  assert (Hin : forall x m fs,
             Forall (fun f => Int.subset f m) fs ->
             Forall (fun f => Z.land (clear_bits x m) f = 0) fs).
  { intros x m fs Hfs. induction Hfs as [|f fs Hf _ IH]; constructor;
      [apply clear_bits_clears, Hf|exact IH]. }
  split; [|split].
  - apply Hin. unfold iflag_cleared.
    repeat constructor;
      auto 10 using subset_lor_here, Bits.subset_lor_l, Bits.subset_lor_r.
  - apply Hin. unfold lflag_cleared.
    repeat constructor;
      auto 10 using subset_lor_here, Bits.subset_lor_l, Bits.subset_lor_r.
  - apply clear_bits_clears, subset_refl.
Qed.

Lemma line_settings_byte_reads speed tty :
  cc_subscripts (with_speed (Int.to_u32 speed) tty) ->
  byte_reads (line_settings speed tty).
Proof.
  intros [Hmin Htime]. unfold byte_reads. rewrite line_settings_cc. split.
  - destruct (decide (VTIME = VMIN)) as [->|Hne].
    + apply list_lookup_insert_eq. rewrite length_insert. exact Hmin.
    + rewrite list_lookup_insert_ne by exact Hne.
      apply list_lookup_insert_eq. exact Hmin.
  - apply list_lookup_insert_eq. rewrite length_insert. exact Htime.
Qed.

(** The structure committed carries the whole line configuration. *)
Lemma line_settings_configuration speed tty :
  cflag_layout -> cc_subscripts (with_speed (Int.to_u32 speed) tty) ->
  line_configuration (line_settings speed tty).
Proof.
  intros Hl Hcc. unfold line_configuration.
  split; [apply line_settings_eight_data_bits, Hl|].
  split; [apply line_settings_drops;
          apply Bits.subset_lor_l, subset_lor_here|].
  split; [apply line_settings_drops;
          apply Bits.subset_lor_l, Bits.subset_lor_r|].
  split; [apply line_settings_drops, Bits.subset_lor_r|].
  split; [split; apply line_settings_keeps; auto using subset_lor_here,
            Bits.subset_lor_r|].
  split; [apply line_settings_raw|].
  apply line_settings_byte_reads, Hcc.
Qed.

End Settings.

(** ** The frame of the line settings *)

Section SettingsFrame.

Context {P : Platform} {L : Libc}.

Lemma line_settings_cflag_frame speed tty :
  Int.is_u32 (c_cflag (with_speed (Int.to_u32 speed) tty)) ->
  same_outside cflag_named
    (c_cflag (with_speed (Int.to_u32 speed) tty))
    (c_cflag (line_settings speed tty)).
Proof.
  intros Hu n Hn Hm. unfold cflag_named in Hm.
  rewrite !Z.lor_spec in Hm.
  repeat match type of Hm with
         | _ || _ = false => apply orb_false_elim in Hm; destruct Hm as [Hm ?]
         end.
  rewrite line_settings_cflag_bit, !Z.lor_spec by exact Hn.
  rewrite (Bits.u32_bit _ n Hu Hn).
  repeat match goal with
         | H : Z.testbit _ n = false |- _ => rewrite H; clear H
         end.
  btauto.
Qed.

(** Past the speed setters, [line_settings] changes the named bits and the
    two control characters, and nothing else. *)
Lemma line_settings_frame speed tty :
  flags_u32 (with_speed (Int.to_u32 speed) tty) ->
  only_named_changed (with_speed (Int.to_u32 speed) tty)
                     (line_settings speed tty).
Proof.
  intros (Hi & Ho & Hc & Hl). unfold only_named_changed.
  split; [apply line_settings_cflag_frame, Hc|].
  split; [rewrite line_settings_iflag; apply clear_bits_frame, Hi|].
  split; [rewrite line_settings_lflag; apply clear_bits_frame, Hl|].
  split; [rewrite line_settings_oflag; apply clear_bits_frame, Ho|].
  split; [|repeat split].
  intros i Hmin Htime. rewrite line_settings_cc.
  rewrite !list_lookup_insert_ne by congruence. reflexivity.
Qed.

Context {World : Type} {O : OS World}.

(** What [_set_interface_attribs] commits is [line_settings] of what
    [tcgetattr] stored. *)
Lemma set_interface_attribs_commits fd speed (w : World) t :
  t ∈ commits (calls (_set_interface_attribs fd speed) w) ->
  t = line_settings speed (snd (fst (os_tcgetattr fd w))).
Proof.
  unfold calls. rewrite set_interface_attribs_unfold. simpl.
  destruct (os_tcgetattr fd w) as [[r tty] w1]. simpl.
  destruct (r <? 0); simpl.
  - intros Ht. apply elem_of_nil in Ht. contradiction.
  - destruct (os_tcsetattr _ _ _ w1) as [r' w2]. simpl.
    intros Ht. apply list_elem_of_singleton in Ht. exact Ht.
Qed.

(** C10, as amended: the line-configuration step starts from the
    attributes [tcgetattr] stored, lets [cfsetospeed] and [cfsetispeed] set
    the speed in them, and beyond that changes only the bits it names
    (CLOCAL, CREAD, the CSIZE field, CS8, PARENB, CSTOPB, CRTSCTS, the
    listed input, local and output mode bits) and the VMIN and VTIME
    control characters: every other flag bit, every other [c_cc] entry and
    every other member is committed as the speed setters left it. *)
Theorem committed_attributes_frame fd speed (w : World) t :
  flags_u32 (with_speed (Int.to_u32 speed) (snd (fst (os_tcgetattr fd w)))) ->
  t ∈ commits (calls (_set_interface_attribs fd speed) w) ->
  only_named_changed
    (with_speed (Int.to_u32 speed) (snd (fst (os_tcgetattr fd w)))) t.
Proof.
  intros Hu Ht. apply set_interface_attribs_commits in Ht. subst t.
  apply line_settings_frame, Hu.
Qed.

End SettingsFrame.

(** C10, as stated, fails: with a C library that keeps the speeds in
    [c_ispeed] and [c_ospeed], configuring a line read at 9600 baud for
    115200 commits another [c_ospeed] than the one read. *)
Lemma speed_members_change :
  ~ @only_named_bits_change linux stored_speed_libc.
Proof.
  intros H. specialize (H 4098 cooked_tty).
  assert (Hu : @flags_u32 cooked_tty).
  { unfold flags_u32, Int.is_u32. simpl. lia. }
  destruct (H Hu) as (_ & _ & _ & _ & _ & _ & _ & Hs).
  vm_compute in Hs. discriminate.
Qed.

(** ** Opening the port *)

Section Opening.

Context {P : Platform} {E : BaudEnum} {L : Libc}.
Context {World : Type} {O : OS World}.

Local Ltac statuses :=
  repeat match goal with
         | H : 0 <= ?r |- _ =>
             rewrite (proj2 (Z.ltb_ge r 0) H) in *; clear H
         | H : ?r < 0 |- _ =>
             rewrite (proj2 (Z.ltb_lt r 0) H) in *; clear H
         end.

(** A call that reports failure makes the function return the sentinel,
    and a non-negative result comes from [open] with no failure reported. *)
Lemma open_run_status (portname : string) (baud h : Z) (tr : list event) :
  open_run portname baud h tr ->
  (h = -1 \/ 0 <= h) /\
  (existsb failed tr = true -> h = -1) /\
  (0 <= h -> ev_open portname open_flags h ∈ tr /\ existsb failed tr = false).
Proof.
  intros Hrun.
  destruct Hrun; (split; [auto|split; [|intros Hh]]);
    try reflexivity; try lia.
  - intros Hf. simpl in Hf. statuses. simpl in Hf. discriminate.
  - split; [apply list_elem_of_here|].
    simpl. statuses. reflexivity.
Qed.

(** C3: [open_serial_port] returns the sentinel -1 or a non-negative
    handle; if any of its calls reports failure the result is the sentinel;
    and a non-negative result is the descriptor that [open] returned, no
    call having reported failure. *)
Theorem open_returns_handle_or_sentinel (portname : string) (baud : Z)
    (w : World) :
  let h := result (open_serial_port portname baud) w in
  let tr := calls (open_serial_port portname baud) w in
  (h = -1 \/ 0 <= h) /\
  (existsb failed tr = true -> h = -1) /\
  (0 <= h -> ev_open portname open_flags h ∈ tr /\ existsb failed tr = false).
Proof.
  intros h tr. apply (open_run_status portname baud).
  apply open_serial_port_run.
Qed.

(** The function never calls [close]. *)
Lemma open_never_closes (portname : string) (baud : Z) (w : World) :
  existsb is_close (calls (open_serial_port portname baud) w) = false.
Proof. destruct (open_serial_port_run portname baud w); reflexivity. Qed.

(** C7: when the device was opened and a later call reports failure,
    [open_serial_port] returns the sentinel, has made no [close] call, and
    the descriptor that [open] returned is left open. *)
Theorem failed_open_keeps_descriptor (portname : string) (baud : Z)
    (w : World) (fd : Z) :
  ev_open portname open_flags fd ∈ calls (open_serial_port portname baud) w ->
  0 <= fd ->
  existsb failed (calls (open_serial_port portname baud) w) = true ->
  result (open_serial_port portname baud) w = -1 /\
  existsb is_close (calls (open_serial_port portname baud) w) = false /\
  left_open (calls (open_serial_port portname baud) w) = [fd].
Proof.
  intros Hin Hfd Hfail.
  split; [apply (open_run_status portname baud _ _
                   (open_serial_port_run portname baud w)), Hfail|].
  split; [apply open_never_closes|].
  clear Hfail.
  assert (Hhead : forall fd' tl,
    ev_open portname open_flags fd ∈ ev_open portname open_flags fd' :: tl ->
    Forall (fun e => match e with ev_open _ _ _ => False | _ => True end) tl ->
    fd' = fd).
  { intros fd' tl Hel Hall. apply elem_of_cons in Hel.
    destruct Hel as [Heq|Hel]; [congruence|].
    rewrite Forall_forall in Hall. destruct (Hall _ Hel). }
  destruct (open_serial_port_run portname baud w);
    (apply Hhead in Hin; [subst|repeat constructor]);
    unfold left_open; simpl;
    rewrite (proj2 (Z.ltb_ge fd 0) Hfd); reflexivity.
Qed.

(** C9: on a successful open the line attributes are committed by exactly
    one [tcsetattr] call, on the handle returned, and the structure
    committed carries the whole line configuration: 8 data bits, no parity,
    1 stop bit, no hardware flow control, the line local with the receiver
    on, raw mode, and reads of one byte with an inter-byte timer of 1; and
    when [tcgetattr] or [tcsetattr] reports failure, open fails. *)
Theorem open_commits_line_configuration (portname : string) (baud : Z)
    (w : World) :
  cflag_layout ->
  (forall fd r tty,
     ev_tcgetattr fd r tty ∈ calls (open_serial_port portname baud) w ->
     cc_subscripts (with_speed (baud_rate baud) tty)) ->
  let h := result (open_serial_port portname baud) w in
  let tr := calls (open_serial_port portname baud) w in
  (0 <= h ->
   exists t, commits tr = [t] /\
             ev_tcsetattr h TCSANOW t 0 ∈ tr /\
             line_configuration t) /\
  (forall fd r tty, ev_tcgetattr fd r tty ∈ tr -> r < 0 -> h = -1) /\
  (forall fd act t r, ev_tcsetattr fd act t r ∈ tr -> r <> 0 -> h = -1).
Proof.
  intros Hl Hcc h tr. subst h tr.
  destruct (open_serial_port_run portname baud w) as
    [fd|fd r1|fd r1 r2|fd r1 r2 r3 tty|fd r1 r2 r3 tty r4|fd r1 r2 r3 tty];
    (split; [intros Hh; try lia|split; try reflexivity]).
  - exists (line_settings (baud_rate baud) tty).
    split; [reflexivity|]. split.
    + do 4 apply list_elem_of_further. apply list_elem_of_here.
    + apply line_settings_configuration; [exact Hl|].
      unfold baud_rate at 1.
      rewrite Bits.to_u32_id by apply Bits.to_u32_range.
      apply (Hcc fd r3 tty).
      do 3 apply list_elem_of_further. apply list_elem_of_here.
  - intros fd' r tty' Hin Hr.
    repeat (apply elem_of_cons in Hin; destruct Hin as [Hin|Hin];
            [try discriminate|]);
      [injection Hin as -> -> ->; lia|apply elem_of_nil in Hin; contradiction].
  - intros fd' act t r Hin Hr.
    repeat (apply elem_of_cons in Hin; destruct Hin as [Hin|Hin];
            [try discriminate|]);
      [injection Hin as -> -> -> ->; congruence
      |apply elem_of_nil in Hin; contradiction].
Qed.

End Opening.

(** ** Byte transfer, polling and waiting *)

Section Transfer.

Context {P : Platform}.
Context {World : Type} {O : OS World}.

Lemma getc_unfold param ch (w : World) :
  helium_serial_getc param ch (start w) =
  let r := fst (os_read (fd_of_param param) 1 w) in
  ((0 <? read_ret r, stored r ch),
   Machine (snd (os_read (fd_of_param param) 1 w))
           [ev_read (fd_of_param param) 1 r]).
Proof.
  unfold helium_serial_getc, bind, sys_read, syscall, ret, start. simpl.
  destruct (os_read (fd_of_param param) 1 w). reflexivity.
Qed.

(** C4: [helium_serial_getc] makes one call, a [read] of one byte, and
    returns true exactly when that call transferred one byte, which is then
    the byte in [*ch]; after an error or a transfer of zero bytes it returns
    false and [*ch] is as it was. *)
Theorem getc_reads_one_byte (param : Z) (ch : byte) (w : World) :
  let r := fst (os_read (fd_of_param param) 1 w) in
  let ok := fst (result (helium_serial_getc param ch) w) in
  let ch' := snd (result (helium_serial_getc param ch) w) in
  read_within 1 r ->
  calls (helium_serial_getc param ch) w = [ev_read (fd_of_param param) 1 r] /\
  (ok = true <-> exists b, r = read_bytes [b]) /\
  (ok = true -> r = read_bytes [ch']) /\
  (r = read_error \/ r = read_bytes [] -> ok = false /\ ch' = ch).
Proof.
  intros r ok ch' Hr. subst ok ch'. unfold result, calls.
  rewrite getc_unfold. fold r. simpl.
  unfold read_within in Hr.
  split; [reflexivity|].
  destruct r as [|[|b [|b' data]]]; simpl in *.
  - split; [split; [discriminate|intros [b Hb]; discriminate]|].
    split; [discriminate|auto].
  - split; [split; [discriminate|intros [b Hb]; discriminate]|].
    split; [discriminate|auto].
  - split; [split; [eauto|reflexivity]|].
    split; [reflexivity|]. intros [|]; discriminate.
  - lia.
Qed.

(** C5: [helium_serial_putc] makes one call, a [write] of the one byte, and
    returns true exactly when that call returned 1. *)
Theorem putc_writes_one_byte (param : Z) (ch : byte) (w : World) :
  let n := fst (os_write (fd_of_param param) [ch] w) in
  calls (helium_serial_putc param ch) w =
    [ev_write (fd_of_param param) [ch] n] /\
  (result (helium_serial_putc param ch) w = true <-> n = 1).
Proof.
  unfold result, calls, helium_serial_putc, bind, sys_write, syscall, ret, start.
  simpl. destruct (os_write (fd_of_param param) [ch] w) as [n w']. simpl.
  split; [reflexivity|]. apply Z.eqb_eq.
Qed.

(** C6: [helium_serial_readable] makes one call, a [poll] of the one
    descriptor for POLLIN without timeout, and returns true exactly when
    that call returned 1 and the POLLIN bit is set in the conditions it
    reported; on a polling error, or without that bit, it returns false. *)
Theorem readable_reports_pollin (param : Z) (w : World) (k : Z) :
  0 <= k -> POLLIN = 2 ^ k ->
  let n := fst (fst (os_poll (fd_of_param param) POLLIN (-1) w)) in
  let revents := snd (fst (os_poll (fd_of_param param) POLLIN (-1) w)) in
  calls (helium_serial_readable param) w =
    [ev_poll (fd_of_param param) POLLIN 1 (-1) n revents] /\
  (result (helium_serial_readable param) w = true <->
   n = 1 /\ Z.testbit revents k = true).
Proof.
  intros Hk Hp.
  unfold result, calls, helium_serial_readable, bind, sys_poll, syscall, ret,
    start. simpl.
  destruct (os_poll (fd_of_param param) POLLIN (-1) w) as [[n revents] w'].
  simpl. destruct (Z.eqb_spec n 1) as [->|Hn]; simpl.
  - split; [reflexivity|]. unfold Int.to_bool.
    rewrite negb_true_iff, Z.eqb_neq, Hp, Bits.land_pow2_nonzero by exact Hk.
    tauto.
  - split; [reflexivity|]. split; [discriminate|tauto].
Qed.

(** C8: [helium_wait_us] does the same whatever the context parameter: one
    [usleep] call for the given number of microseconds. *)
Theorem wait_us_ignores_context (param1 param2 us : Z) (m : machine World) :
  helium_wait_us param1 us m = helium_wait_us param2 us m /\
  exists r, trace (snd (helium_wait_us param1 us m)) =
            trace m ++ [ev_usleep us r].
Proof.
  split; [reflexivity|].
  unfold helium_wait_us, bind, sys_usleep, syscall, ret.
  destruct (os_usleep us (world m)) as [r w']. simpl. eauto.
Qed.

End Transfer.

(** ** The theorems at work on Linux, over the scripted system *)

Section OnLinux.

#[local] Existing Instance linux.
#[local] Existing Instance baud_in_order.
#[local] Existing Instance stored_speed_libc.
#[local] Existing Instance scripted.

Lemma linux_distinct_labels : distinct_labels.
Proof. unfold distinct_labels, enumerators. simpl. compute_done. Defined.

Lemma linux_speeds_u32 : speeds_u32.
Proof.
  unfold speeds_u32, Int.is_u32. simpl. repeat constructor; simpl; lia.
Defined.

Lemma linux_cflag_layout : cflag_layout.
Proof.
  unfold cflag_layout, Int.subset, Int.disjoint, Int.is_u32. simpl.
  repeat split; try reflexivity; vm_compute; congruence.
Defined.

(** The 14400 selector is resolved to B19200. *)
Lemma baud_selector_resolution_witness :
  ((helium_baud_b14400, B19200) ∈ specified_speed) /\
  baud_rate helium_baud_b14400 = B19200.
Proof.
  assert (Hin : (helium_baud_b14400, B19200) ∈ specified_speed).
  { unfold specified_speed. apply list_elem_of_further, list_elem_of_here. }
  split; [exact Hin|].
  exact (proj1 (baud_selector_resolution (World := script)
                  helium_baud_b14400 B19200
                  linux_distinct_labels linux_speeds_u32 Hin)).
Defined.

(** The value 6 is resolved to B9600, and the working line opens with it
    as it opens with the 9600 selector. *)
Lemma unknown_selector_default_witness :
  (6 ∉ enumerators) /\ baud_rate 6 = B9600 /\
  open_serial_port usb0 6 (start working_line) =
    open_serial_port usb0 helium_baud_b9600 (start working_line).
Proof.
  assert (Hv : 6 ∉ enumerators).
  { unfold enumerators. simpl. compute_done. }
  assert (Hu : Int.is_u32 B9600).
  { unfold Int.is_u32. simpl. lia. }
  split; [exact Hv|].
  destruct (unknown_selector_default (World := script) 6 Hv Hu)
    as (Hb & Hrun & _).
  split; [exact Hb|apply Hrun].
Defined.

(** With 'A' pending, [helium_serial_getc] reads it in one call and returns
    true. *)
Lemma getc_reads_one_byte_witness :
  read_within 1 (read_bytes [x41]) /\
  calls (helium_serial_getc 3 x00) pending_A =
    [ev_read 3 1 (read_bytes [x41])] /\
  fst (result (helium_serial_getc 3 x00) pending_A) = true.
Proof.
  assert (Hr : read_within 1 (read_bytes [x41])).
  { unfold read_within. simpl. lia. }
  split; [exact Hr|].
  pose proof (getc_reads_one_byte 3 x00 pending_A Hr) as (Hcalls & Hok & _).
  split; [exact Hcalls|].
  apply Hok. exists x41. reflexivity.
Defined.

(** A line that polls ready for input is reported readable. *)
Lemma readable_reports_pollin_witness :
  POLLIN = 2 ^ 0 /\
  result (helium_serial_readable 3) ready_line = true.
Proof.
  assert (Hp : POLLIN = 2 ^ 0) by reflexivity.
  split; [exact Hp|].
  assert (Hk : 0 <= 0) by lia.
  apply (proj2 (readable_reports_pollin 3 ready_line 0 Hk Hp)).
  split; reflexivity.
Defined.

(** When the exclusive-access request is refused, descriptor 3 stays open
    and the caller gets the sentinel. *)
Lemma failed_open_keeps_descriptor_witness :
  existsb failed (calls (open_serial_port usb0 helium_baud_b9600) busy_line)
    = true /\
  result (open_serial_port usb0 helium_baud_b9600) busy_line = -1 /\
  left_open (calls (open_serial_port usb0 helium_baud_b9600) busy_line) = [3].
Proof.
  assert (Hf : existsb failed
                 (calls (open_serial_port usb0 helium_baud_b9600) busy_line)
               = true) by reflexivity.
  split; [exact Hf|].
  assert (Hin : ev_open usb0 open_flags 3 ∈
                calls (open_serial_port usb0 helium_baud_b9600) busy_line)
    by apply list_elem_of_here.
  assert (Hfd : 0 <= 3) by lia.
  pose proof (failed_open_keeps_descriptor usb0 helium_baud_b9600 busy_line 3
                Hin Hfd Hf) as (Hres & _ & Hopen).
  split; [exact Hres|exact Hopen].
Defined.

(** On the working line, opening at 115200 commits the line configuration
    once and returns descriptor 3. *)
Lemma open_commits_line_configuration_witness :
  result (open_serial_port usb0 helium_baud_b115200) working_line = 3 /\
  exists t,
    commits (calls (open_serial_port usb0 helium_baud_b115200) working_line)
      = [t] /\
    line_configuration t.
Proof.
  split; [reflexivity|].
  assert (Hcc : forall fd r tty,
    ev_tcgetattr fd r tty ∈
      calls (open_serial_port usb0 helium_baud_b115200) working_line ->
    cc_subscripts (with_speed (baud_rate helium_baud_b115200) tty)).
  { intros fd r tty Hin.
    repeat (apply elem_of_cons in Hin; destruct Hin as [Hin|Hin];
            [try discriminate|]);
      [|apply elem_of_nil in Hin; contradiction].
    injection Hin as _ _ ->. unfold cc_subscripts. simpl. lia. }
  assert (Hh : 0 <= result (open_serial_port usb0 helium_baud_b115200)
                      working_line) by (vm_compute; congruence).
  destruct (proj1 (open_commits_line_configuration usb0 helium_baud_b115200
                     working_line linux_cflag_layout Hcc) Hh)
    as (t & Hc & _ & Hline).
  exists t. split; [exact Hc|exact Hline].
Defined.

(** Configuring the 9600-baud line for 115200 leaves everything but the
    named bits and control characters as the speed setters left it. *)
Lemma committed_attributes_frame_witness :
  flags_u32 (with_speed 4098 cooked_tty) /\
  only_named_changed (with_speed 4098 cooked_tty)
                     (line_settings 4098 cooked_tty).
Proof.
  assert (Hu : flags_u32 (with_speed 4098 cooked_tty)).
  { unfold flags_u32, Int.is_u32. simpl. lia. }
  split; [exact Hu|].
  assert (Hin : line_settings 4098 cooked_tty ∈
                commits (calls (_set_interface_attribs 3 4098) open_line))
    by apply list_elem_of_here.
  exact (committed_attributes_frame 3 4098 open_line _ Hu Hin).
Defined.

End OnLinux.

(** ** Further properties of the shim *)

Section Further.

Context {P : Platform} {E : BaudEnum} {L : Libc}.
Context {World : Type} {O : OS World}.

Local Ltac accepted :=
  repeat match goal with
         | H : 0 <= ?r |- _ =>
             rewrite (proj2 (Z.ltb_ge r 0) H) in *; clear H
         | H : ?r < 0 |- _ =>
             rewrite (proj2 (Z.ltb_lt r 0) H) in *; clear H
         | H : ?r <> 0 |- _ =>
             rewrite (proj2 (Z.eqb_neq r 0) H) in *; clear H
         end.

(** X1: [_set_interface_attribs] returns 0 or -1.  When [tcgetattr] fails
    it makes no other call, so the structure it never filled is never
    committed; otherwise it makes one [tcsetattr] call, on the same
    descriptor with TCSANOW, and returns 0 exactly when that call
    returned 0. *)
Theorem set_interface_attribs_status (fd speed : Z) (w : World) :
  let r := result (_set_interface_attribs fd speed) w in
  let tr := calls (_set_interface_attribs fd speed) w in
  let got := fst (os_tcgetattr fd w) in
  (r = 0 \/ r = -1) /\
  (fst got < 0 ->
   r = -1 /\ tr = [ev_tcgetattr fd (fst got) (snd got)]) /\
  (0 <= fst got ->
   exists s,
     tr = [ev_tcgetattr fd (fst got) (snd got);
           ev_tcsetattr fd TCSANOW (line_settings speed (snd got)) s] /\
     (r = 0 <-> s = 0)).
Proof.
  intros r tr got. subst r tr got. unfold result, calls.
  rewrite set_interface_attribs_unfold. unfold start. simpl.
  destruct (os_tcgetattr fd w) as [[r0 tty] w1]. simpl.
  destruct (Z.ltb_spec r0 0) as [Hr|Hr]; simpl.
  - split; [auto|]. split; [auto|]. lia.
  - destruct (os_tcsetattr _ _ _ w1) as [s w2]. simpl.
    split; [destruct (s =? 0); auto|]. split; [lia|].
    intros _. exists s. split; [reflexivity|].
    destruct (Z.eqb_spec s 0); split; intros; try lia; congruence.
Qed.

(** X2: [open_serial_port] stops at the first call it takes for a failure:
    every call but the last was accepted, and the result is the sentinel
    exactly when the last call was refused. *)
Theorem open_stops_at_first_refusal (portname : string) (baud : Z)
    (w : World) :
  let h := result (open_serial_port portname baud) w in
  let tr := calls (open_serial_port portname baud) w in
  exists pre e,
    tr = pre ++ [e] /\
    existsb refused pre = false /\
    (refused e = true <-> h = -1).
Proof.
  intros h tr. subst h tr.
  destruct (open_serial_port_run portname baud w) as
    [fd|fd r1|fd r1 r2|fd r1 r2 r3 tty|fd r1 r2 r3 tty r4|fd r1 r2 r3 tty].
  - exists [], (ev_open portname open_flags fd).
    simpl. accepted. tauto.
  - exists [ev_open portname open_flags fd], (ev_ioctl fd TIOCEXCL r1).
    simpl. accepted. tauto.
  - exists [ev_open portname open_flags fd; ev_ioctl fd TIOCEXCL r1],
           (ev_fcntl fd F_SETFL 0 r2).
    simpl. accepted. tauto.
  - exists [ev_open portname open_flags fd; ev_ioctl fd TIOCEXCL r1;
            ev_fcntl fd F_SETFL 0 r2], (ev_tcgetattr fd r3 tty).
    simpl. accepted. tauto.
  - exists [ev_open portname open_flags fd; ev_ioctl fd TIOCEXCL r1;
            ev_fcntl fd F_SETFL 0 r2; ev_tcgetattr fd r3 tty],
           (ev_tcsetattr fd TCSANOW (line_settings (baud_rate baud) tty) r4).
    simpl. accepted. tauto.
  - exists [ev_open portname open_flags fd; ev_ioctl fd TIOCEXCL r1;
            ev_fcntl fd F_SETFL 0 r2; ev_tcgetattr fd r3 tty],
           (ev_tcsetattr fd TCSANOW (line_settings (baud_rate baud) tty) 0).
    simpl. split; [reflexivity|]. split.
    + pose proof H as Hfd. accepted. reflexivity.
    + split; [discriminate|lia].
Qed.

(** X3: a successful [open_serial_port] has made five calls in this order,
    each accepted and each on the handle it returns: [open] of the path
    with O_RDWR | O_NOCTTY | O_NONBLOCK, [ioctl] TIOCEXCL, [fcntl] F_SETFL
    with 0, [tcgetattr], and [tcsetattr] TCSANOW of the line settings
    built from the attributes read. *)
Theorem open_success_calls (portname : string) (baud : Z) (w : World) :
  0 <= result (open_serial_port portname baud) w ->
  exists r1 r2 r3 tty,
    0 <= r1 /\ 0 <= r2 /\ 0 <= r3 /\
    calls (open_serial_port portname baud) w =
      [ev_open portname open_flags (result (open_serial_port portname baud) w);
       ev_ioctl (result (open_serial_port portname baud) w) TIOCEXCL r1;
       ev_fcntl (result (open_serial_port portname baud) w) F_SETFL 0 r2;
       ev_tcgetattr (result (open_serial_port portname baud) w) r3 tty;
       ev_tcsetattr (result (open_serial_port portname baud) w) TCSANOW
         (line_settings (baud_rate baud) tty) 0].
Proof.
  destruct (open_serial_port_run portname baud w); intros Hh; try lia.
  exists r1, r2, r3, tty. auto.
Qed.

(** X4: whichever way [open_serial_port] leaves, it has made one [open]
    call, of the path given with O_RDWR | O_NOCTTY | O_NONBLOCK, followed
    by at most four calls, all of them on the descriptor that [open]
    returned; a non-negative result is that descriptor. *)
Theorem open_uses_one_descriptor (portname : string) (baud : Z) (w : World) :
  let h := result (open_serial_port portname baud) w in
  let tr := calls (open_serial_port portname baud) w in
  exists fd rest,
    tr = ev_open portname open_flags fd :: rest /\
    Forall (fun e => descriptor_of e = Some fd) rest /\
    (length rest <= 4)%nat /\
    (0 <= h -> h = fd).
Proof.
  intros h tr. subst h tr.
  destruct (open_serial_port_run portname baud w);
    eexists _, _; (split; [reflexivity|]);
    (split; [repeat constructor|]); simpl; split; lia.
Qed.

(** X5: whatever the selector value, the speed [open_serial_port] asks for
    is one of the five line-speed constants. *)
Theorem baud_rate_supported (baud : Z) : baud_rate baud ∈ speed_constants.
Proof.
  unfold baud_rate, speed_constants. simpl.
  repeat match goal with
         | |- context [if ?c then _ else _] => destruct c
         end;
    repeat first [apply list_elem_of_here | apply list_elem_of_further].
Qed.

(** X6: with a C library whose setters store the speed, every structure
    [open_serial_port] commits has the speed chosen for the selector as its
    output speed and as its input speed. *)
Theorem open_sets_both_speeds (portname : string) (baud : Z) (w : World) t :
  setters_store_speed ->
  t ∈ commits (calls (open_serial_port portname baud) w) ->
  c_ospeed t = baud_rate baud /\ c_ispeed t = baud_rate baud.
Proof.
  intros [Hout Hin] Ht.
  destruct (open_commits_resolved portname baud w t Ht) as [tty ->].
  change (c_ospeed (line_settings (baud_rate baud) tty))
    with (c_ospeed (with_speed (Int.to_u32 (baud_rate baud)) tty)).
  change (c_ispeed (line_settings (baud_rate baud) tty))
    with (c_ispeed (with_speed (Int.to_u32 (baud_rate baud)) tty)).
  unfold with_speed.
  destruct (Hin (snd (cfsetospeed tty (Int.to_u32 (baud_rate baud))))
                (Int.to_u32 (baud_rate baud))) as [-> ->].
  rewrite Hout.
  assert (Hid : Int.to_u32 (baud_rate baud) = baud_rate baud).
  { unfold baud_rate. apply Bits.to_u32_id, Bits.to_u32_range. }
  auto.
Qed.

Lemma fd_of_param_int (fd : Z) : is_int fd -> fd_of_param fd = fd.
Proof.
  unfold is_int, fd_of_param, Int.to_int. intros Hfd.
  rewrite Z.mod_small by lia. lia.
Qed.

(** X7: a descriptor that is a value of [int] survives the passage through
    the context pointer: called with it, [helium_serial_getc],
    [helium_serial_putc] and [helium_serial_readable] make their one call
    on that descriptor. *)
Theorem descriptor_through_context (fd : Z) (ch : byte) (w : World) :
  is_int fd ->
  (exists r, calls (helium_serial_getc fd ch) w = [ev_read fd 1 r]) /\
  (exists n, calls (helium_serial_putc fd ch) w = [ev_write fd [ch] n]) /\
  (exists n revents,
     calls (helium_serial_readable fd) w =
       [ev_poll fd POLLIN 1 (-1) n revents]).
Proof.
  intros Hfd. unfold calls.
  unfold helium_serial_getc, helium_serial_putc, helium_serial_readable,
    bind, sys_read, sys_write, sys_poll, syscall, ret, start.
  rewrite (fd_of_param_int fd Hfd). simpl.
  destruct (os_read fd 1 w) as [r w1].
  destruct (os_write fd [ch] w) as [n w2].
  destruct (os_poll fd POLLIN (-1) w) as [[k revents] w3]. simpl.
  split; [eauto|]. split; [eauto|].
  exists k, revents. destruct (k =? 1); reflexivity.
Qed.

Lemma close_serial_port_trace (fd : Z) (m : machine World) :
  trace (snd (close_serial_port fd m)) =
  trace m ++ [ev_close fd (fst (os_close fd (world m)))].
Proof.
  unfold close_serial_port, bind, sys_close, syscall, ret.
  destruct (os_close fd (world m)). reflexivity.
Qed.


(** X9: when [open_serial_port] has opened the device and then returns the
    sentinel, passing what it returned to [close_serial_port] does not
    release the device: whatever that [close] call returns, the descriptor
    that [open] gave is still open. *)
Theorem sentinel_cannot_be_closed (portname : string) (baud : Z) (w : World)
    (fd : Z) :
  let opened := open_serial_port portname baud (start w) in
  let closed := close_serial_port (fst opened) (snd opened) in
  ev_open portname open_flags fd ∈ trace (snd opened) ->
  0 <= fd ->
  fst opened = -1 ->
  left_open (trace (snd closed)) = [fd].
Proof.
  intros opened closed Hin Hfd Hh. subst closed.
  rewrite close_serial_port_trace.
  pose proof (open_serial_port_run portname baud w) as Hrun.
  unfold result, calls in Hrun. fold opened in Hrun, Hin.
  unfold left_open. rewrite foldl_app.
  assert (Hleft : foldl track [] (trace (snd opened)) = [fd]).
  { destruct Hrun;
      (apply elem_of_cons in Hin; destruct Hin as [Heq|Hin];
       [injection Heq as <-
       |repeat (apply elem_of_cons in Hin; destruct Hin as [Hin|Hin];
                [discriminate|]); apply elem_of_nil in Hin; contradiction]);
      simpl; rewrite (proj2 (Z.ltb_ge fd 0) Hfd); reflexivity. }
  rewrite Hleft, Hh. simpl.
  destruct (fst (os_close (-1) (world (snd opened))) =? 0); [|reflexivity].
  simpl. rewrite filter_cons_True by lia. reflexivity.
Qed.

Lemma fd_of_param_wraps (param k : Z) :
  fd_of_param (param + k * 2 ^ 32) = fd_of_param param.
Proof.
  unfold fd_of_param, Int.to_int.
  replace (param + k * 2 ^ 32 + 2 ^ 31) with (param + 2 ^ 31 + k * 2 ^ 32)
    by lia.
  rewrite Z.mod_add by lia. reflexivity.
Qed.

(** X10: the selector reaches the system only as the speed chosen for it.
    Opening with the 14400 selector is the same run as opening with the
    19200 selector, and opening with a value outside the enumeration is
    the same run as opening with the 9600 selector. *)
Theorem selectors_with_one_speed (portname : string) (m : machine World) :
  distinct_labels ->
  open_serial_port portname helium_baud_b14400 m =
    open_serial_port portname helium_baud_b19200 m /\
  forall v, v ∉ enumerators ->
    open_serial_port portname v m =
      open_serial_port portname helium_baud_b9600 m.
Proof.
  intros Hd.
  assert (Hsame : forall b1 b2, baud_rate b1 = baud_rate b2 ->
            open_serial_port portname b1 m = open_serial_port portname b2 m).
  { intros b1 b2 Hb. unfold open_serial_port, bind.
    destruct (sys_open portname open_flags m) as [fd m0].
    destruct (fd <? 0); [reflexivity|].
    destruct (sys_ioctl fd TIOCEXCL m0) as [r1 m1].
    destruct (r1 <? 0); [reflexivity|].
    destruct (sys_fcntl fd F_SETFL 0 m1) as [r2 m2].
    destruct (r2 <? 0); [reflexivity|].
    rewrite Hb. reflexivity. }
  unfold distinct_labels, enumerators in Hd.
  apply NoDup_cons in Hd. destruct Hd as [Hd _].
  apply not_elem_of_cons in Hd. destruct Hd as [H14 Hd].
  apply not_elem_of_cons in Hd. destruct Hd as [H19 _].
  split.
  - apply Hsame. unfold baud_rate.
    rewrite (proj2 (Z.eqb_neq _ _) (not_eq_sym H14)).
    rewrite (proj2 (Z.eqb_neq _ _) (not_eq_sym H19)).
    rewrite !Z.eqb_refl. rewrite orb_true_r. reflexivity.
  - intros v Hv. apply Hsame.
    rewrite (baud_rate_unknown v Hv). unfold baud_rate.
    rewrite Z.eqb_refl. reflexivity.
Qed.

(** X11: of the context pointer only the low 32 bits count: two contexts
    that differ by a multiple of 2^32 make [helium_serial_getc],
    [helium_serial_putc] and [helium_serial_readable] behave alike. *)
Theorem context_high_bits_ignored (param k : Z) (ch : byte)
    (m : machine World) :
  helium_serial_getc (param + k * 2 ^ 32) ch m = helium_serial_getc param ch m /\
  helium_serial_putc (param + k * 2 ^ 32) ch m = helium_serial_putc param ch m /\
  helium_serial_readable (param + k * 2 ^ 32) m = helium_serial_readable param m.
Proof.
  unfold helium_serial_getc, helium_serial_putc, helium_serial_readable.
  rewrite fd_of_param_wraps. auto.
Qed.

End Further.

(** ** The further properties at work on Linux *)

Section FurtherOnLinux.

#[local] Existing Instance linux.
#[local] Existing Instance baud_in_order.
#[local] Existing Instance stored_speed_libc.
#[local] Existing Instance scripted.

Lemma stored_speed_setters : setters_store_speed.
Proof. split; [reflexivity|]. intros t s. split; reflexivity. Defined.

(** The working line is opened with the five calls, on descriptor 3. *)
Lemma open_success_calls_witness :
  exists r1 r2 r3 tty,
    0 <= r1 /\ 0 <= r2 /\ 0 <= r3 /\
    calls (open_serial_port usb0 helium_baud_b19200) working_line =
      [ev_open usb0 open_flags 3; ev_ioctl 3 TIOCEXCL r1;
       ev_fcntl 3 F_SETFL 0 r2; ev_tcgetattr 3 r3 tty;
       ev_tcsetattr 3 TCSANOW
         (line_settings (baud_rate helium_baud_b19200) tty) 0].
Proof.
  assert (Hh : 0 <= result (open_serial_port usb0 helium_baud_b19200)
                      working_line) by (vm_compute; congruence).
  exact (open_success_calls usb0 helium_baud_b19200 working_line Hh).
Defined.

(** Opened at 115200, the working line is committed with both speeds at
    B115200. *)
Lemma open_sets_both_speeds_witness :
  c_ospeed (line_settings (baud_rate helium_baud_b115200) cooked_tty) = B115200 /\
  c_ispeed (line_settings (baud_rate helium_baud_b115200) cooked_tty) = B115200.
Proof.
  assert (Hin : line_settings (baud_rate helium_baud_b115200) cooked_tty ∈
                commits (calls (open_serial_port usb0 helium_baud_b115200)
                               working_line))
    by apply list_elem_of_here.
  exact (open_sets_both_speeds usb0 helium_baud_b115200 working_line _
           stored_speed_setters Hin).
Defined.

(** Descriptor 3 as context: the three functions call on descriptor 3. *)
Lemma descriptor_through_context_witness :
  is_int 3 /\
  exists n, calls (helium_serial_putc 3 x41) ready_line = [ev_write 3 [x41] n].
Proof.
  assert (Hfd : is_int 3) by (unfold is_int; lia).
  split; [exact Hfd|].
  exact (proj1 (proj2 (descriptor_through_context 3 x41 ready_line Hfd))).
Defined.


(** When the attributes cannot be committed, closing the value returned
    leaves descriptor 3 open. *)
Lemma sentinel_cannot_be_closed_witness :
  fst (open_serial_port usb0 helium_baud_b9600 (start stuck_line)) = -1 /\
  left_open
    (trace (snd (close_serial_port
                   (fst (open_serial_port usb0 helium_baud_b9600
                           (start stuck_line)))
                   (snd (open_serial_port usb0 helium_baud_b9600
                           (start stuck_line)))))) = [3].
Proof.
  assert (Hh : fst (open_serial_port usb0 helium_baud_b9600
                      (start stuck_line)) = -1) by reflexivity.
  split; [exact Hh|].
  assert (Hin : ev_open usb0 open_flags 3 ∈
                trace (snd (open_serial_port usb0 helium_baud_b9600
                              (start stuck_line))))
    by apply list_elem_of_here.
  assert (Hfd : 0 <= 3) by lia.
  exact (sentinel_cannot_be_closed usb0 helium_baud_b9600 stuck_line 3
           Hin Hfd Hh).
Defined.

(** On the working line the 14400 and the 19200 selector give one run. *)
Lemma selectors_with_one_speed_witness :
  open_serial_port usb0 helium_baud_b14400 (start working_line) =
  open_serial_port usb0 helium_baud_b19200 (start working_line).
Proof.
  exact (proj1 (selectors_with_one_speed usb0 (start working_line)
                  linux_distinct_labels)).
Defined.

End FurtherOnLinux.
